(** * verify_person/verify.py: matching decision, profile registry and access log

    A shallow embedding of [src/verify_person/verify.py].

    - Python floats ([distance], [threshold], [FALLBACK_THRESHOLD]) are
      rationals [Q]; [float(x)] on a number is the identity and [<=] is
      [Qle_bool].  [float(None)] raises [TypeError].
    - the SQLite database behind [conn] is a record of its two tables, each a
      list of rows in insertion order;
    - exceptions are an explicit [result] type; the matching service and the
      ledger write are the two external calls whose failure is an input of the
      iteration ([ev_find], [ev_store_ok]);
    - the drawing and audio calls ([cv2.*], [playsound]) do not touch the
      database and are taken to return; they are left out. *)

From Stdlib Require Import List String Ascii Bool ZArith QArith Lia.
Import ListNotations.
Open Scope string_scope.

(** ** Exceptions *)

Module Py.

Inductive exn : Type :=
| TypeError      (* float(None) *)
| StorageError.  (* sqlite3.Error raised by execute/commit *)

Inductive result (A : Type) : Type :=
| Ok (a : A)
| Raise (e : exn).
Arguments Ok {A} a.
Arguments Raise {A} e.

Definition bind {A B} (m : result A) (k : A -> result B) : result B :=
  match m with
  | Ok a => k a
  | Raise e => Raise e
  end.

(** [float(x)]: a number converts to itself, [None] raises. *)
Definition float (x : option Q) : result Q :=
  match x with
  | Some q => Ok q
  | None => Raise TypeError
  end.

(** [x is not None]. *)
Definition is_not_None {A} (x : option A) : bool :=
  match x with
  | Some _ => true
  | None => false
  end.

End Py.
Import Py.

Notation "x <- m ;; k" := (bind m (fun x => k))
  (at level 61, m at next level, right associativity).

(** ** os.path (posixpath) on strings *)

Module OsPath.

Definition sep : ascii := "/"%char.
Definition is_sep (c : ascii) : bool := Ascii.eqb c sep.

Fixpoint take_until_sep (l : list ascii) : list ascii :=
  match l with
  | [] => []
  | c :: r => if is_sep c then [] else c :: take_until_sep r
  end.

Fixpoint drop_until_sep (l : list ascii) : list ascii :=
  match l with
  | [] => []
  | c :: r => if is_sep c then l else drop_until_sep r
  end.

Fixpoint lstrip_sep (l : list ascii) : list ascii :=
  match l with
  | [] => []
  | c :: r => if is_sep c then lstrip_sep r else l
  end.

(** [p[:i]] and [p[i:]] for [i = p.rfind('/') + 1]. *)
Definition head_of (p : list ascii) : list ascii := rev (drop_until_sep (rev p)).
Definition tail_of (p : list ascii) : list ascii := rev (take_until_sep (rev p)).

(** [basename(p) = p[i:]]. *)
Definition basename (p : string) : string :=
  string_of_list_ascii (tail_of (list_ascii_of_string p)).

(** [dirname(p)]: [head = p[:i]]; when [head] is not empty and not made of
    separators only, its trailing separators are stripped. *)
Definition dirname (p : string) : string :=
  let head := head_of (list_ascii_of_string p) in
  string_of_list_ascii
    (if negb (forallb is_sep head) then rev (lstrip_sep (rev head)) else head).

End OsPath.

(** ** Configuration (the module constants of lines 9-17) *)

Record config : Type := Config {
  USE_THRESHOLD_FROM_DF : bool;
  FALLBACK_THRESHOLD : Q
}.

Definition source_config : config :=
  {| USE_THRESHOLD_FROM_DF := true; FALLBACK_THRESHOLD := 45 # 100 |}.

(** ** The top row of the matcher's answer

    [top] is the dict of the first row of the first data frame.  A field is
    [None] when the key is missing or its value is [None]; both make
    [top.get(key, None)] be [None], and both make [top.get("identity", "")]
    falsy. *)

Record candidate : Type := Candidate {
  c_identity : option string;
  c_distance : option Q;
  c_threshold : option Q
}.

(** Lines 114-115: [identity_path = top.get("identity", "")];
    [person_name = basename(dirname(identity_path)) if identity_path else None]. *)
Definition person_name_of (top : candidate) : option string :=
  match c_identity top with
  | None => None
  | Some "" => None
  | Some identity_path => Some (OsPath.basename (OsPath.dirname identity_path))
  end.

(** Lines 119-122: the value of [matched], or the exception the conversion
    raises. *)
Definition matched_of (cfg : config) (top : candidate) : result bool :=
  let distance := c_distance top in
  let threshold := c_threshold top in
  if USE_THRESHOLD_FROM_DF cfg && is_not_None threshold then
    d <- float distance ;;
    t <- float threshold ;;
    Ok (Qle_bool d t)
  else
    match distance with
    | Some _ => d <- float distance ;; Ok (Qle_bool d (FALLBACK_THRESHOLD cfg))
    | None => Ok false
    end.

Example person_name_nazarbek :
  person_name_of (Candidate (Some "known_faces/Nazarbek/img1.jpg") None None)
  = Some "Nazarbek".
Proof. reflexivity. Qed.

Example person_name_flat_file :
  person_name_of (Candidate (Some "img1.jpg") None None) = Some "".
Proof. reflexivity. Qed.

Example dirname_root : OsPath.dirname "//x" = "//".
Proof. reflexivity. Qed.

(** ** The database: tables [employees] and [access_logs] *)

Record employee : Type := Employee {
  e_id : Z;
  e_folder_name : string;   (* TEXT UNIQUE *)
  e_full_name : string;
  e_class : string
}.

Record access_log : Type := AccessLog {
  l_id : Z;
  l_folder_name : option string;
  l_full_name : option string;
  l_timestamp : string;
  l_matched : Z;
  l_distance : option Q
}.

Record db : Type := Db {
  employees : list employee;
  access_logs : list access_log
}.

(** The file behind [sqlite3.connect]: each table exists or not. *)
Record db_file : Type := DbFile {
  f_employees : option (list employee);
  f_access_logs : option (list access_log)
}.

Definition new_file : db_file := DbFile None None.

(** [CREATE TABLE IF NOT EXISTS] for both tables. *)
Definition init_db (file : db_file) : db :=
  {| employees := match f_employees file with Some t => t | None => [] end;
     access_logs := match f_access_logs file with Some t => t | None => [] end |}.

(** Row id of an [INTEGER PRIMARY KEY] column left out of the insert: one more
    than the largest id in the table. *)
Definition next_id (ids : list Z) : Z := (1 + fold_right Z.max 0 ids)%Z.

(** The values of a [person_data] entry; [None] is a missing key. *)
Record info : Type := Info {
  i_full_name : option string;
  i_class : option string
}.

Definition info_get (field : option string) (default : string) : string :=
  match field with
  | Some v => v
  | None => default
  end.

Definition has_folder (tbl : list employee) (folder_name : string) : bool :=
  existsb (fun e => String.eqb (e_folder_name e) folder_name) tbl.

(** [INSERT OR IGNORE INTO employees (folder_name, full_name, class)]: the row
    is dropped when [folder_name] is already in the table. *)
Definition insert_or_ignore (tbl : list employee)
    (folder_name full_name class : string) : list employee :=
  if has_folder tbl folder_name then tbl
  else tbl ++ [ {| e_id := next_id (map e_id tbl);
                   e_folder_name := folder_name;
                   e_full_name := full_name;
                   e_class := class |} ].

(** [seed_employees]: the mapping is the dict's items in insertion order. *)
Definition seed_row (tbl : list employee) (item : string * info) : list employee :=
  let (folder_name, inf) := item in
  insert_or_ignore tbl folder_name
    (info_get (i_full_name inf) folder_name) (info_get (i_class inf) "").

Definition seed_employees (conn : db) (mapping : list (string * info)) : db :=
  {| employees := fold_left seed_row mapping (employees conn);
     access_logs := access_logs conn |}.

Definition person_data : list (string * info) :=
  [ ("Nazarbek", Info (Some "Nazarbek Qobulov") (Some "9-sinf"));
    ("Azizbek", Info (Some "Azizbek X.") (Some "10-sinf")) ].

(** The dict [get_employee] returns, and the one line 125 builds. *)
Record emp : Type := Emp {
  emp_folder_name : option string;
  emp_full_name : option string;
  emp_class : string
}.

(** [SELECT ... WHERE folder_name = ?] and [fetchone]: the first row with that
    key; a [NULL] parameter equals no row. *)
Definition get_employee (conn : db) (folder_name : option string) : option emp :=
  match folder_name with
  | None => None
  | Some k =>
      match find (fun e => String.eqb (e_folder_name e) k) (employees conn) with
      | Some row => Some (Emp (Some (e_folder_name row)) (Some (e_full_name row)) (e_class row))
      | None => None
      end
  end.

(** [log_access]: [now] is the clock reading, [store_ok] tells whether the
    store accepts the insert and its commit. *)
Definition log_access (conn : db) (now : string) (store_ok : bool)
    (folder_name full_name : option string) (matched : bool)
    (distance : option Q) : result db :=
  let ts := now in
  if store_ok then
    Ok {| employees := employees conn;
          access_logs := access_logs conn ++
            [ {| l_id := next_id (map l_id (access_logs conn));
                 l_folder_name := folder_name;
                 l_full_name := full_name;
                 l_timestamp := ts;
                 l_matched := (if matched then 1 else 0)%Z;
                 l_distance := match distance with
                               | Some d => Some d
                               | None => None
                               end |} ] |}
  else Raise StorageError.

(** ** The matcher's answer and [safe_get_top_result] *)

Inductive df_item : Type :=
| NotDataFrame
| DataFrame (rows : list candidate).

Definition safe_get_top_result (df_list : option (list df_item)) : option candidate :=
  match df_list with
  | None => None
  | Some [] => None
  | Some (df :: _) =>
      match df with
      | DataFrame (row :: _) => Some row
      | _ => None
      end
  end.

(** ** One pass of the [while True] body *)

Inductive find_outcome : Type :=
| FindRaises
| FindReturns (df_list : option (list df_item)).

Record frame_event : Type := FrameEvent {
  ev_find : find_outcome;   (* what DeepFace.find does on this frame *)
  ev_now : string;          (* datetime.now().isoformat() *)
  ev_store_ok : bool;       (* whether the ledger insert goes through *)
  ev_quit : bool            (* cv2.waitKey(1) & 0xFF == ord("q") *)
}.

(** Lines 100-110. *)
Definition df_list_of (ev : frame_event) : option (list df_item) :=
  match ev_find ev with
  | FindRaises => None
  | FindReturns df_list => df_list
  end.

(** Lines 112-153, the database part. *)
Definition iteration (cfg : config) (conn : db) (ev : frame_event) : result db :=
  let top := safe_get_top_result (df_list_of ev) in
  match top with
  | Some top =>
      let person_name := person_name_of top in
      let distance := c_distance top in
      matched <- matched_of cfg top ;;
      if matched : bool then
        let e := match get_employee conn person_name with
                 | Some e => e
                 | None => Emp person_name person_name ""
                 end in
        log_access conn (ev_now ev) (ev_store_ok ev)
          person_name (emp_full_name e) true distance
      else
        log_access conn (ev_now ev) (ev_store_ok ev)
          None (Some "Unknown") false distance
  | None =>
      log_access conn (ev_now ev) (ev_store_ok ev)
        None (Some "Unknown") false None
  end.

(** ** The loop and [main] *)

Inductive exit : Type :=
| CaptureEnded          (* cap.read() gave ret = False *)
| QuitKey               (* 'q' pressed *)
| CameraClosed          (* cap.isOpened() is False *)
| Uncaught (e : exn).   (* an exception left main *)

(** The frames are those the capture delivers; after the last one [cap.read()]
    returns [ret = False]. *)
Fixpoint main_loop (cfg : config) (conn : db) (frames : list frame_event)
  : db * exit :=
  match frames with
  | [] => (conn, CaptureEnded)
  | ev :: rest =>
      match iteration cfg conn ev with
      | Raise e => (conn, Uncaught e)
      | Ok conn' =>
          if ev_quit ev then (conn', QuitKey) else main_loop cfg conn' rest
      end
  end.

Definition main (cfg : config) (file : db_file) (camera_opened : bool)
    (frames : list frame_event) : db * exit :=
  let conn := init_db file in
  let conn := seed_employees conn person_data in
  if camera_opened then main_loop cfg conn frames
  else (conn, CameraClosed).

(** ** Notions the claims are stated with *)

(** The threshold in force for a candidate: its own when the flag is set and it
    carries one, the configured fallback otherwise. *)
Definition active_threshold (cfg : config) (top : candidate) : Q :=
  match c_threshold top with
  | Some t => if USE_THRESHOLD_FROM_DF cfg then t else FALLBACK_THRESHOLD cfg
  | None => FALLBACK_THRESHOLD cfg
  end.

(** The outcome of the decision step of a frame: [matched] of the top row,
    unmatched when there is no top row. *)
Definition decision (cfg : config) (ev : frame_event) : result bool :=
  match safe_get_top_result (df_list_of ev) with
  | Some top => matched_of cfg top
  | None => Ok false
  end.

(** The distance handed to [log_access] on a frame. *)
Definition distance_of (ev : frame_event) : option Q :=
  match safe_get_top_result (df_list_of ev) with
  | Some top => c_distance top
  | None => None
  end.

(** The row an unmatched attempt leaves in [access_logs]. *)
Definition unknown_entry (conn : db) (now : string) (distance : option Q)
  : access_log :=
  {| l_id := next_id (map l_id (access_logs conn));
     l_folder_name := None;
     l_full_name := Some "Unknown";
     l_timestamp := now;
     l_matched := 0%Z;
     l_distance := distance |}.

Definition append_log (conn : db) (row : access_log) : db :=
  {| employees := employees conn; access_logs := access_logs conn ++ [row] |}.

(** Sample inputs. *)
Definition db0 : db := seed_employees (init_db new_file) person_data.

Definition frame (top : candidate) (store_ok : bool) : frame_event :=
  {| ev_find := FindReturns (Some [DataFrame [top]]);
     ev_now := "2024-05-01T09:00:00";
     ev_store_ok := store_ok;
     ev_quit := false |}.

Definition cand_boundary : candidate :=
  Candidate (Some "known_faces/Nazarbek/img1.jpg") (Some (45 # 100)) (Some (45 # 100)).

Definition cand_no_identity : candidate :=
  Candidate None (Some (20 # 100)) (Some (40 # 100)).

Definition cand_no_distance : candidate :=
  Candidate (Some "known_faces/Nazarbek/img1.jpg") None (Some (40 # 100)).

Definition cand_stranger : candidate :=
  Candidate (Some "known_faces/Dilnoza/img7.jpg") (Some (30 # 100)) (Some (40 # 100)).

Definition cand_far : candidate :=
  Candidate (Some "known_faces/Azizbek/img2.jpg") (Some (50 # 100)) None.

(** ** What a pass shows and plays (lines 124-136 and 150-153)

    [fmt3] stands for the format [{distance:.3f}]. *)

Record feedback : Type := Feedback {
  fb_text1 : string;
  fb_text2 : option string;   (* [None]: the branch draws one line only *)
  fb_color : Z * Z * Z;
  fb_sound : string
}.

(** [str(x)] inside an f-string. *)
Definition py_str (x : option string) : string :=
  match x with
  | Some s => s
  | None => "None"
  end.

(** The loop body with the texts, the colour and the sound it picks; the sound
    is played after [log_access] has returned. *)
Definition iteration_fb (fmt3 : Q -> string) (cfg : config) (conn : db)
    (ev : frame_event) : result (db * feedback) :=
  let top := safe_get_top_result (df_list_of ev) in
  match top with
  | Some top =>
      let person_name := person_name_of top in
      let distance := c_distance top in
      matched <- matched_of cfg top ;;
      if matched : bool then
        let e := match get_employee conn person_name with
                 | Some e => e
                 | None => Emp person_name person_name ""
                 end in
        let text1 := "Ism: " ++ py_str (emp_full_name e) in
        let text2 := "Sinf: " ++ emp_class e in
        let color := (0, 255, 0)%Z in
        conn' <- log_access conn (ev_now ev) (ev_store_ok ev)
                   person_name (emp_full_name e) true distance ;;
        Ok (conn', Feedback text1 (Some text2) color "access.mp3")
      else
        let text1 := "Sizni tanib bo'lmadi" in
        let text2 := match distance with
                     | Some d => "Distance: " ++ fmt3 d
                     | None => ""
                     end in
        let color := (0, 0, 255)%Z in
        conn' <- log_access conn (ev_now ev) (ev_store_ok ev)
                   None (Some "Unknown") false distance ;;
        Ok (conn', Feedback text1 (Some text2) color "error.mp3")
  | None =>
      conn' <- log_access conn (ev_now ev) (ev_store_ok ev)
                 None (Some "Unknown") false None ;;
      Ok (conn', Feedback "Sizni tanib bo'lmadi" None (0, 0, 255)%Z "error.mp3")
  end.

(** A string without the path separator. *)
Definition no_sep (s : string) : bool :=
  forallb (fun c => negb (OsPath.is_sep c)) (list_ascii_of_string s).


(** ** Basic facts *)

Lemma float_Some (q : Q) : float (Some q) = Ok q.
Proof. reflexivity. Qed.

Lemma matched_of_distance (cfg : config) (top : candidate) (d : Q) :
  c_distance top = Some d ->
  matched_of cfg top = Ok (Qle_bool d (active_threshold cfg top)).
Proof.
  intros Hd. unfold matched_of, active_threshold. rewrite Hd.
  destruct (USE_THRESHOLD_FROM_DF cfg), (c_threshold top); reflexivity.
Qed.

Lemma matched_of_no_distance (cfg : config) (top : candidate) :
  c_distance top = None ->
  matched_of cfg top =
    if USE_THRESHOLD_FROM_DF cfg && is_not_None (c_threshold top)
    then Raise TypeError else Ok false.
Proof.
  intros Hd. unfold matched_of. rewrite Hd.
  destruct (USE_THRESHOLD_FROM_DF cfg && is_not_None (c_threshold top)); reflexivity.
Qed.

Lemma log_access_accepted (conn : db) (now : string) folder_name full_name
    (matched : bool) (distance : option Q) :
  log_access conn now true folder_name full_name matched distance =
  Ok (append_log conn
        {| l_id := next_id (map l_id (access_logs conn));
           l_folder_name := folder_name;
           l_full_name := full_name;
           l_timestamp := now;
           l_matched := (if matched then 1 else 0)%Z;
           l_distance := distance |}).
Proof. unfold log_access, append_log. destruct distance; reflexivity. Qed.

Lemma log_access_refused (conn : db) (now : string) folder_name full_name
    (matched : bool) (distance : option Q) :
  log_access conn now false folder_name full_name matched distance
  = Raise StorageError.
Proof. reflexivity. Qed.

Lemma get_employee_miss (conn : db) (k : string) :
  has_folder (employees conn) k = false -> get_employee conn (Some k) = None.
Proof.
  unfold get_employee, has_folder. intros H.
  destruct (find _ (employees conn)) as [row|] eqn:F; [|reflexivity].
  apply find_some in F. destruct F as [Hin Heq].
  assert (existsb (fun e => (e_folder_name e =? k)%string) (employees conn) = true)
    by (apply existsb_exists; exists row; auto).
  congruence.
Qed.

(** An unmatched attempt, whatever the top row was. *)
Lemma iteration_unmatched (cfg : config) (conn : db) (ev : frame_event) :
  decision cfg ev = Ok false ->
  iteration cfg conn ev =
    log_access conn (ev_now ev) (ev_store_ok ev) None (Some "Unknown") false
      (distance_of ev).
Proof.
  unfold decision, iteration, distance_of.
  destruct (safe_get_top_result (df_list_of ev)) as [top|]; [|reflexivity].
  intros ->. reflexivity.
Qed.

(** A matched attempt. *)
Lemma iteration_matched (cfg : config) (conn : db) (ev : frame_event)
    (top : candidate) :
  safe_get_top_result (df_list_of ev) = Some top ->
  matched_of cfg top = Ok true ->
  iteration cfg conn ev =
    log_access conn (ev_now ev) (ev_store_ok ev) (person_name_of top)
      (emp_full_name
         (match get_employee conn (person_name_of top) with
          | Some e => e
          | None => Emp (person_name_of top) (person_name_of top) ""
          end))
      true (c_distance top).
Proof. intros Htop Hm. unfold iteration. rewrite Htop, Hm. reflexivity. Qed.


(** Outside that case and with the store accepting the insert, one pass of the
    loop body leaves exactly one new row, flagged as the decision says. *)
Lemma iteration_logs_once (cfg : config) (conn : db) (ev : frame_event)
    (m : bool) :
  decision cfg ev = Ok m ->
  ev_store_ok ev = true ->
  exists row,
    iteration cfg conn ev = Ok (append_log conn row) /\
    l_matched row = (if m then 1 else 0)%Z /\
    l_timestamp row = ev_now ev /\
    l_distance row = distance_of ev.
Proof.
  intros Hdec Hok. destruct m.
  - unfold decision in Hdec. unfold distance_of.
    destruct (safe_get_top_result (df_list_of ev)) as [top|] eqn:Htop;
      [|discriminate].
    rewrite (iteration_matched cfg conn ev top Htop Hdec), Hok, log_access_accepted.
    eexists. split; [reflexivity|]. cbn. auto.
  - rewrite (iteration_unmatched cfg conn ev Hdec), Hok, log_access_accepted.
    eexists. split; [reflexivity|]. cbn. auto.
Qed.

(** ** Seeding the registry *)

Section Seeding.

Lemma has_folder_app (tbl : list employee) (e : employee) (k : string) :
  has_folder (tbl ++ [e])%list k = has_folder tbl k || (e_folder_name e =? k)%string.
Proof.
  unfold has_folder. rewrite existsb_app. cbn. now rewrite orb_false_r.
Qed.

Lemma insert_or_ignore_present tbl k full cls :
  has_folder tbl k = true -> insert_or_ignore tbl k full cls = tbl.
Proof. unfold insert_or_ignore. now intros ->. Qed.

Lemma insert_or_ignore_has tbl k full cls :
  has_folder (insert_or_ignore tbl k full cls) k = true.
Proof.
  unfold insert_or_ignore. destruct (has_folder tbl k) eqn:H; [exact H|].
  rewrite has_folder_app. cbn. rewrite String.eqb_refl. apply orb_true_r.
Qed.

Lemma insert_or_ignore_keeps tbl k full cls k' :
  has_folder tbl k' = true ->
  has_folder (insert_or_ignore tbl k full cls) k' = true.
Proof.
  intros H. unfold insert_or_ignore. destruct (has_folder tbl k); [exact H|].
  rewrite has_folder_app, H. reflexivity.
Qed.

Lemma insert_or_ignore_extends tbl k full cls :
  exists added, insert_or_ignore tbl k full cls = (tbl ++ added)%list.
Proof.
  unfold insert_or_ignore. destruct (has_folder tbl k).
  - exists []. now rewrite app_nil_r.
  - eexists. reflexivity.
Qed.

Lemma has_folder_In (tbl : list employee) (k : string) :
  has_folder tbl k = true <-> In k (map e_folder_name tbl).
Proof.
  unfold has_folder. rewrite existsb_exists, in_map_iff. split.
  - intros (e & Hin & Heq). apply String.eqb_eq in Heq. now exists e.
  - intros (e & Heq & Hin). exists e. split; [exact Hin|].
    now apply String.eqb_eq.
Qed.

Lemma insert_or_ignore_NoDup tbl k full cls :
  NoDup (map e_folder_name tbl) ->
  NoDup (map e_folder_name (insert_or_ignore tbl k full cls)).
Proof.
  intros ND. unfold insert_or_ignore. destruct (has_folder tbl k) eqn:H; [exact ND|].
  rewrite map_app. cbn. apply NoDup_app_remove_l with (l := []). cbn.
  assert (~ In k (map e_folder_name tbl)) as Hnot.
  { rewrite <- has_folder_In. congruence. }
  clear H. induction (map e_folder_name tbl) as [|x xs IH]; cbn.
  - constructor; [intros []|constructor].
  - inversion ND; subst. constructor.
    + rewrite in_app_iff. cbn. intros [Hx|[Hx|[]]]; [tauto|].
      apply Hnot. now left.
    + apply IH; [assumption|]. intros Hk. apply Hnot. now right.
Qed.

Lemma seed_fold_keeps mapping : forall tbl k,
  has_folder tbl k = true ->
  has_folder (fold_left seed_row mapping tbl) k = true.
Proof.
  induction mapping as [|[k0 inf] rest IH]; intros tbl k H; cbn; [exact H|].
  apply IH. now apply insert_or_ignore_keeps.
Qed.

Lemma seed_fold_covers mapping : forall tbl item,
  In item mapping ->
  has_folder (fold_left seed_row mapping tbl) (fst item) = true.
Proof.
  induction mapping as [|[k0 inf] rest IH]; intros tbl item Hin; [destruct Hin|].
  cbn. destruct Hin as [<-|Hin].
  - apply seed_fold_keeps. cbn. apply insert_or_ignore_has.
  - now apply IH.
Qed.

Lemma seed_fold_noop mapping : forall tbl,
  (forall item, In item mapping -> has_folder tbl (fst item) = true) ->
  fold_left seed_row mapping tbl = tbl.
Proof.
  induction mapping as [|[k0 inf] rest IH]; intros tbl H; [reflexivity|].
  cbn. rewrite insert_or_ignore_present.
  - apply IH. intros item Hin. apply H. now right.
  - apply (H (k0, inf)). now left.
Qed.

Lemma seed_fold_extends mapping : forall tbl,
  exists added, fold_left seed_row mapping tbl = (tbl ++ added)%list.
Proof.
  induction mapping as [|[k0 inf] rest IH]; intros tbl; cbn.
  - exists []. now rewrite app_nil_r.
  - destruct (insert_or_ignore_extends tbl k0
                (info_get (i_full_name inf) k0) (info_get (i_class inf) ""))
      as [a1 E1].
    destruct (IH (insert_or_ignore tbl k0
                (info_get (i_full_name inf) k0) (info_get (i_class inf) "")))
      as [a2 E2].
    exists (a1 ++ a2)%list. rewrite E2, E1. now rewrite <- app_assoc.
Qed.

Lemma seed_fold_NoDup mapping : forall tbl,
  NoDup (map e_folder_name tbl) ->
  NoDup (map e_folder_name (fold_left seed_row mapping tbl)).
Proof.
  induction mapping as [|[k0 inf] rest IH]; intros tbl ND; cbn; [exact ND|].
  apply IH. now apply insert_or_ignore_NoDup.
Qed.

Lemma seed_twice (conn : db) (mapping : list (string * info)) :
  seed_employees (seed_employees conn mapping) mapping
  = seed_employees conn mapping.
Proof.
  unfold seed_employees. cbn. f_equal.
  apply seed_fold_noop. intros item Hin. now apply seed_fold_covers.
Qed.

End Seeding.

(** ** The decision rule *)

(** C1. For a candidate that carries a distance [d], the decision is MATCHED
    exactly when [d] is at most the active threshold (the candidate's own
    threshold when [USE_THRESHOLD_FROM_DF] is set and the candidate has one,
    [FALLBACK_THRESHOLD] otherwise); a distance equal to the threshold is
    MATCHED. *)
Theorem matched_iff_within_active_threshold
    (cfg : config) (top : candidate) (d : Q) :
  c_distance top = Some d ->
  (matched_of cfg top = Ok true <-> (d <= active_threshold cfg top)%Q) /\
  (matched_of cfg top = Ok false <-> ~ (d <= active_threshold cfg top)%Q) /\
  ((d == active_threshold cfg top)%Q -> matched_of cfg top = Ok true).
Proof.
  intros Hd. rewrite (matched_of_distance cfg top d Hd).
  pose proof (Qle_bool_iff d (active_threshold cfg top)) as Hle.
  destruct (Qle_bool d (active_threshold cfg top)) eqn:E.
  - repeat split; intros; try reflexivity; try (now apply Hle).
    + discriminate.
    + exfalso. apply H. now apply Hle.
  - assert (~ (d <= active_threshold cfg top)%Q) as Hn.
    { intros H. apply Hle in H. discriminate. }
    repeat split; intros; try reflexivity; try assumption.
    + discriminate.
    + contradiction.
    + exfalso. apply Hn. rewrite H. apply Qle_refl.
Qed.

Lemma matched_iff_within_active_threshold_witness :
  c_distance cand_boundary = Some (45 # 100) /\
  matched_of source_config cand_boundary = Ok true.
Proof.
  split; [reflexivity|].
  apply (matched_iff_within_active_threshold source_config cand_boundary
           (45 # 100) eq_refl).
  vm_compute. reflexivity.
Defined.

(** C3, as the code has it.  The identity key takes no part in the decision: a
    candidate without one is decided by distance and threshold like any other.
    With a distance it is UNMATCHED exactly when the distance exceeds the
    active threshold; with a null distance under the fallback rule it is
    UNMATCHED. *)
Theorem absent_identity_decided_by_distance (cfg : config) (top : candidate) :
  person_name_of top = None ->
  match c_distance top with
  | Some d =>
      matched_of cfg top = Ok (Qle_bool d (active_threshold cfg top)) /\
      (matched_of cfg top = Ok false <-> ~ (d <= active_threshold cfg top)%Q)
  | None =>
      USE_THRESHOLD_FROM_DF cfg && is_not_None (c_threshold top) = false ->
      matched_of cfg top = Ok false
  end.
Proof.
  intros _. destruct (c_distance top) as [d|] eqn:Hd.
  - rewrite (matched_of_distance cfg top d Hd). split; [reflexivity|].
    pose proof (Qle_bool_iff d (active_threshold cfg top)) as Hle.
    destruct (Qle_bool d (active_threshold cfg top)); split; intros H.
    + discriminate.
    + exfalso. apply H. now apply Hle.
    + intros Hd'. apply Hle in Hd'. discriminate.
    + reflexivity.
  - intros Hfb. rewrite (matched_of_no_distance cfg top Hd), Hfb. reflexivity.
Qed.

Lemma absent_identity_decided_by_distance_witness :
  person_name_of cand_no_identity = None /\
  matched_of source_config cand_no_identity
  = Ok (Qle_bool (20 # 100) (active_threshold source_config cand_no_identity)).
Proof.
  split; [reflexivity|].
  exact (proj1 (absent_identity_decided_by_distance source_config
                  cand_no_identity eq_refl)).
Defined.

(** C3 fails as stated: a top row with no identity, distance 0.20 and
    threshold 0.40 is MATCHED, and the row written has a null key, a null
    name and [matched = 1]. *)
Lemma absent_identity_can_match :
  person_name_of cand_no_identity = None /\
  matched_of source_config cand_no_identity = Ok true /\
  iteration source_config db0 (frame cand_no_identity true)
  = Ok (append_log db0
          (AccessLog 1 None None "2024-05-01T09:00:00" 1 (Some (20 # 100)))).
Proof. repeat split. Qed.

(** C4 at its failing input.  With [USE_THRESHOLD_FROM_DF] set, a top row that
    has a threshold and a null distance makes line 120 raise [TypeError]; the
    same row is UNMATCHED when the flag is off, where line 122 tests
    [distance is not None]. *)
Theorem null_distance_with_source_threshold_raises :
  c_distance cand_no_distance = None /\
  matched_of source_config cand_no_distance = Raise TypeError /\
  matched_of (Config false (45 # 100)) cand_no_distance = Ok false.
Proof. repeat split. Qed.

(** ** The loop body and the ledger *)

(** C2 at its failing input.  A frame whose top row has a threshold and a null
    distance raises before any [log_access] call: the pass writes no row and
    the exception leaves the loop. *)
Theorem null_distance_frame_skips_logging :
  iteration source_config db0 (frame cand_no_distance true) = Raise TypeError /\
  main_loop source_config db0 [frame cand_no_distance true; frame cand_far true]
  = (db0, Uncaught TypeError) /\
  access_logs db0 = [].
Proof. repeat split. Qed.

(** C5, as the code has it.  A refused ledger write is not caught: the
    exception leaves the loop at once, no later frame is processed and the
    database is as it was before the pass. *)
Theorem ledger_failure_propagates
    (cfg : config) (conn : db) (ev : frame_event) (rest : list frame_event)
    (m : bool) :
  decision cfg ev = Ok m ->
  ev_store_ok ev = false ->
  iteration cfg conn ev = Raise StorageError /\
  main_loop cfg conn (ev :: rest) = (conn, Uncaught StorageError).
Proof.
  intros Hdec Hfail.
  assert (iteration cfg conn ev = Raise StorageError) as Hit.
  { destruct m.
    - unfold decision in Hdec.
      destruct (safe_get_top_result (df_list_of ev)) as [top|] eqn:Htop;
        [|discriminate].
      rewrite (iteration_matched cfg conn ev top Htop Hdec), Hfail.
      apply log_access_refused.
    - rewrite (iteration_unmatched cfg conn ev Hdec), Hfail.
      apply log_access_refused. }
  split; [exact Hit|]. cbn. now rewrite Hit.
Qed.

Lemma ledger_failure_propagates_witness :
  main_loop source_config db0 [frame cand_far false; frame cand_boundary true]
  = (db0, Uncaught StorageError).
Proof.
  apply (ledger_failure_propagates source_config db0 (frame cand_far false)
           [frame cand_boundary true] false); reflexivity.
Defined.

(** C5 fails as stated: the ledger write of the first frame is refused, the
    loop ends with the storage error and the second frame, which a loop that
    went on would have logged, is never processed. *)
Lemma ledger_failure_ends_loop :
  ev_store_ok (frame cand_far false) = false /\
  main_loop source_config db0 [frame cand_far false; frame cand_boundary true]
  = (db0, Uncaught StorageError) /\
  main_loop source_config db0 [frame cand_boundary true]
  = (append_log db0
       (AccessLog 1 (Some "Nazarbek") (Some "Nazarbek Qobulov")
          "2024-05-01T09:00:00" 1 (Some (45 # 100))),
     CaptureEnded).
Proof. repeat split. Qed.

(** C6. When [DeepFace.find] raises, the pass is the one of a frame with no
    candidate: same result as when the matcher returns nothing, the decision is
    UNMATCHED, and, the store accepting the insert, exactly one row (the
    unknown one) is appended and the loop goes on with the next frame. *)
Theorem find_error_is_no_candidate
    (cfg : config) (conn : db) (now : string) (store_ok quit : bool)
    (rest : list frame_event) :
  let ev := FrameEvent FindRaises now store_ok quit in
  iteration cfg conn ev
  = iteration cfg conn (FrameEvent (FindReturns None) now store_ok quit) /\
  iteration cfg conn ev
  = iteration cfg conn (FrameEvent (FindReturns (Some [])) now store_ok quit) /\
  decision cfg ev = Ok false /\
  (store_ok = true ->
   iteration cfg conn ev = Ok (append_log conn (unknown_entry conn now None)) /\
   main_loop cfg conn (ev :: rest)
   = if quit then (append_log conn (unknown_entry conn now None), QuitKey)
     else main_loop cfg (append_log conn (unknown_entry conn now None)) rest).
Proof.
  cbn zeta. do 3 (split; [reflexivity|]). intros ->.
  assert (iteration cfg conn (FrameEvent FindRaises now true quit)
          = Ok (append_log conn (unknown_entry conn now None))) as Hit
    by (unfold iteration; cbn [df_list_of ev_find safe_get_top_result
                                 ev_now ev_store_ok];
        apply log_access_accepted).
  split; [exact Hit|].
  cbn [main_loop]. rewrite Hit. reflexivity.
Qed.

Lemma find_error_is_no_candidate_witness :
  main_loop source_config db0
    [FrameEvent FindRaises "2024-05-01T09:00:00" true false;
     frame cand_boundary true]
  = main_loop source_config
      (append_log db0 (unknown_entry db0 "2024-05-01T09:00:00" None))
      [frame cand_boundary true].
Proof.
  exact (proj2 (proj2 (proj2 (proj2
    (find_error_is_no_candidate source_config db0 "2024-05-01T09:00:00"
       true false [frame cand_boundary true]))) eq_refl)).
Defined.

(** C7. A MATCHED candidate whose identity key is not in [employees]: the
    lookup returns [None] and does not raise, and the row appended carries the
    raw key both as [folder_name] and as [full_name]. *)
Theorem matched_unregistered_key_logged
    (cfg : config) (conn : db) (ev : frame_event) (top : candidate)
    (k : string) :
  safe_get_top_result (df_list_of ev) = Some top ->
  matched_of cfg top = Ok true ->
  person_name_of top = Some k ->
  has_folder (employees conn) k = false ->
  ev_store_ok ev = true ->
  get_employee conn (Some k) = None /\
  iteration cfg conn ev
  = Ok (append_log conn
          {| l_id := next_id (map l_id (access_logs conn));
             l_folder_name := Some k;
             l_full_name := Some k;
             l_timestamp := ev_now ev;
             l_matched := 1%Z;
             l_distance := c_distance top |}).
Proof.
  intros Htop Hm Hk Hmiss Hok.
  pose proof (get_employee_miss conn k Hmiss) as Hget.
  split; [exact Hget|].
  rewrite (iteration_matched cfg conn ev top Htop Hm), Hk, Hget, Hok.
  apply log_access_accepted.
Qed.

Lemma matched_unregistered_key_logged_witness :
  get_employee db0 (Some "Dilnoza") = None /\
  iteration source_config db0 (frame cand_stranger true)
  = Ok (append_log db0
          (AccessLog 1 (Some "Dilnoza") (Some "Dilnoza")
             "2024-05-01T09:00:00" 1 (Some (30 # 100)))).
Proof.
  apply (matched_unregistered_key_logged source_config db0
           (frame cand_stranger true) cand_stranger "Dilnoza");
    reflexivity.
Defined.

(** C9. A frame with no candidate: the decision is UNMATCHED and the row
    appended has a null key, the name "Unknown", [matched = 0] and a null
    distance. *)
Theorem no_candidate_logs_unknown
    (cfg : config) (conn : db) (ev : frame_event) :
  safe_get_top_result (df_list_of ev) = None ->
  ev_store_ok ev = true ->
  decision cfg ev = Ok false /\
  distance_of ev = None /\
  iteration cfg conn ev
  = Ok (append_log conn
          {| l_id := next_id (map l_id (access_logs conn));
             l_folder_name := None;
             l_full_name := Some "Unknown";
             l_timestamp := ev_now ev;
             l_matched := 0%Z;
             l_distance := None |}).
Proof.
  intros Htop Hok. unfold decision, distance_of, iteration.
  rewrite Htop, Hok. do 2 (split; [reflexivity|]). apply log_access_accepted.
Qed.

Lemma no_candidate_logs_unknown_witness :
  iteration source_config db0
    (FrameEvent (FindReturns (Some [DataFrame []])) "2024-05-01T09:00:00" true false)
  = Ok (append_log db0
          (AccessLog 1 None (Some "Unknown") "2024-05-01T09:00:00" 0 None)).
Proof.
  apply (no_candidate_logs_unknown source_config db0
           (FrameEvent (FindReturns (Some [DataFrame []]))
              "2024-05-01T09:00:00" true false));
    reflexivity.
Defined.

(** C10. The row written for an UNMATCHED decision has a null key and the name
    "Unknown", also when the candidate carried an identity; of the candidate
    only the distance is kept. *)
Theorem unmatched_entry_hides_identity
    (cfg : config) (conn : db) (ev : frame_event) :
  decision cfg ev = Ok false ->
  ev_store_ok ev = true ->
  iteration cfg conn ev
  = Ok (append_log conn
          {| l_id := next_id (map l_id (access_logs conn));
             l_folder_name := None;
             l_full_name := Some "Unknown";
             l_timestamp := ev_now ev;
             l_matched := 0%Z;
             l_distance := distance_of ev |}).
Proof.
  intros Hdec Hok.
  rewrite (iteration_unmatched cfg conn ev Hdec), Hok.
  apply log_access_accepted.
Qed.

Lemma unmatched_entry_hides_identity_witness :
  person_name_of cand_far = Some "Azizbek" /\
  iteration source_config db0 (frame cand_far true)
  = Ok (append_log db0
          (AccessLog 1 None (Some "Unknown") "2024-05-01T09:00:00" 0
             (Some (50 # 100)))).
Proof.
  split; [reflexivity|].
  apply (unmatched_entry_hides_identity source_config db0 (frame cand_far true));
    reflexivity.
Defined.

(** ** The registry *)

(** C8. Seeding any number of times with one mapping gives the database that
    seeding once gives; the rows already in [employees] stay, unchanged and
    first, and no key comes to occur twice. *)
Theorem seed_employees_idempotent
    (conn : db) (mapping : list (string * info)) (n : nat) :
  Nat.iter (S n) (fun c => seed_employees c mapping) conn
  = seed_employees conn mapping /\
  (exists added,
     employees (seed_employees conn mapping) = (employees conn ++ added)%list) /\
  access_logs (seed_employees conn mapping) = access_logs conn /\
  (NoDup (map e_folder_name (employees conn)) ->
   NoDup (map e_folder_name (employees (seed_employees conn mapping)))).
Proof.
  repeat split.
  - induction n as [|n IH]; [reflexivity|].
    change (Nat.iter (S (S n)) (fun c => seed_employees c mapping) conn)
      with (seed_employees
              (Nat.iter (S n) (fun c => seed_employees c mapping) conn) mapping).
    rewrite IH. apply seed_twice.
  - apply seed_fold_extends.
  - apply seed_fold_NoDup.
Qed.

Lemma seed_employees_idempotent_witness :
  seed_employees (seed_employees db0 person_data) person_data
  = seed_employees db0 person_data /\
  NoDup (map e_folder_name (employees (seed_employees db0 person_data))).
Proof.
  pose proof (seed_employees_idempotent db0 person_data 1) as (H1 & _ & _ & H4).
  split; [exact H1|].
  apply H4. repeat constructor; cbn; intuition discriminate.
Defined.

Example seeded_registry :
  employees db0 =
  [ Employee 1 "Nazarbek" "Nazarbek Qobulov" "9-sinf";
    Employee 2 "Azizbek" "Azizbek X." "10-sinf" ].
Proof. reflexivity. Qed.

(** * Further properties of the code *)

(** ** [safe_get_top_result] *)

(** X1. [safe_get_top_result] returns a row exactly when the answer is a list
    whose first element is a data frame with at least one row, and then it is
    that frame's first row; the elements after the first are never looked
    at. *)
Theorem safe_get_top_result_first_row
    (df_list : option (list df_item)) (row : candidate) :
  (safe_get_top_result df_list = Some row <->
   exists rows rest, df_list = Some (DataFrame (row :: rows) :: rest)) /\
  (forall df rest,
     safe_get_top_result (Some (df :: rest)) = safe_get_top_result (Some [df])).
Proof.
  split.
  - destruct df_list as [[|[|[|r rows]] rest]|]; cbn; split;
      try discriminate;
      try (intros (rows' & rest' & H); discriminate).
    + intros [= ->]. now exists rows, rest.
    + intros (rows' & rest' & [= -> _ _]). reflexivity.
  - intros [|[|r rows]] rest; reflexivity.
Qed.

Example later_frames_are_ignored (row : candidate) :
  safe_get_top_result (Some [DataFrame []; DataFrame [row]]) = None.
Proof. reflexivity. Qed.

(** ** The identity key read off the path *)

Section PathFacts.

Import OsPath.

Let not_sep (c : ascii) : bool := negb (is_sep c).

Lemma forallb_rev {A} (f : A -> bool) (l : list A) :
  forallb f (rev l) = forallb f l.
Proof.
  induction l as [|a l IH]; [reflexivity|].
  cbn. rewrite forallb_app, IH. cbn. rewrite andb_true_r. apply andb_comm.
Qed.

Lemma list_ascii_of_string_app (s1 s2 : string) :
  list_ascii_of_string (s1 ++ s2)
  = (list_ascii_of_string s1 ++ list_ascii_of_string s2)%list.
Proof. induction s1 as [|c s1 IH]; cbn; [reflexivity|now rewrite IH]. Qed.

Lemma take_until_sep_clean (l : list ascii) :
  forallb not_sep (take_until_sep l) = true.
Proof.
  induction l as [|c l IH]; [reflexivity|].
  cbn. destruct (is_sep c) eqn:E; [reflexivity|].
  cbn. unfold not_sep at 1. now rewrite E.
Qed.

Lemma take_until_sep_stop (l x : list ascii) :
  forallb not_sep l = true ->
  take_until_sep (l ++ sep :: x) = l.
Proof.
  induction l as [|c l IH]; cbn; [reflexivity|].
  unfold not_sep at 1. destruct (is_sep c); cbn; [discriminate|].
  intros H. now rewrite IH.
Qed.

Lemma drop_until_sep_stop (l x : list ascii) :
  forallb not_sep l = true ->
  drop_until_sep (l ++ sep :: x) = sep :: x.
Proof.
  induction l as [|c l IH]; cbn; [reflexivity|].
  unfold not_sep at 1. destruct (is_sep c); cbn; [discriminate|].
  intros H. now rewrite IH.
Qed.

Lemma drop_until_sep_clean (l : list ascii) :
  forallb not_sep l = true -> drop_until_sep l = [].
Proof.
  induction l as [|c l IH]; cbn; [reflexivity|].
  unfold not_sep at 1. destruct (is_sep c); cbn; [discriminate|exact IH].
Qed.

Lemma tail_of_last (a b : list ascii) :
  forallb not_sep b = true -> tail_of (a ++ sep :: b) = b.
Proof.
  intros Hb. unfold tail_of. rewrite rev_app_distr. cbn [rev].
  rewrite <- app_assoc. cbn [app].
  rewrite take_until_sep_stop by now rewrite forallb_rev.
  apply rev_involutive.
Qed.

Lemma head_of_last (a b : list ascii) :
  forallb not_sep b = true -> head_of (a ++ sep :: b) = (a ++ [sep])%list.
Proof.
  intros Hb. unfold head_of. rewrite rev_app_distr. cbn [rev].
  rewrite <- app_assoc. cbn [app].
  rewrite drop_until_sep_stop by now rewrite forallb_rev.
  change (sep :: rev a) with ([sep] ++ rev a)%list.
  rewrite rev_app_distr, rev_involutive. reflexivity.
Qed.

Lemma basename_clean (p : string) : no_sep (basename p) = true.
Proof.
  unfold no_sep, basename, tail_of.
  rewrite list_ascii_of_string_of_list_ascii, forallb_rev.
  apply take_until_sep_clean.
Qed.

Lemma dirname_of_folder_file (a name file : list ascii) :
  name <> [] ->
  forallb not_sep name = true ->
  forallb not_sep file = true ->
  dirname (string_of_list_ascii (a ++ sep :: name ++ sep :: file))
  = string_of_list_ascii (a ++ sep :: name).
Proof.
  intros Hne Hname Hfile. unfold dirname.
  rewrite list_ascii_of_string_of_list_ascii.
  replace (a ++ sep :: name ++ sep :: file)%list
    with ((a ++ sep :: name) ++ sep :: file)%list
    by (rewrite <- app_assoc; reflexivity).
  rewrite (head_of_last _ file Hfile).
  destruct (rev name) as [|c r] eqn:Hrev.
  { exfalso. apply Hne. rewrite <- (rev_involutive name), Hrev. reflexivity. }
  assert (is_sep c = false) as Hc.
  { assert (forallb not_sep (rev name) = true) as H by now rewrite forallb_rev.
    rewrite Hrev in H. cbn in H. apply andb_prop in H. destruct H as [H _].
    unfold not_sep in H. now destruct (is_sep c). }
  assert (rev ((a ++ sep :: name) ++ [sep]) = sep :: c :: (r ++ sep :: rev a))%list
    as Hr.
  { rewrite rev_app_distr. cbn [rev app]. rewrite rev_app_distr. cbn [rev].
    rewrite Hrev. rewrite <- !app_assoc. reflexivity. }
  assert (forallb is_sep ((a ++ sep :: name) ++ [sep]) = false) as Hall.
  { rewrite <- forallb_rev, Hr. cbn. rewrite Hc. reflexivity. }
  rewrite Hall. cbn [negb]. rewrite Hr. cbn [lstrip_sep].
  change (is_sep sep) with true. cbn iota. cbn [lstrip_sep]. rewrite Hc.
  f_equal. rewrite <- (rev_involutive (a ++ sep :: name)).
  f_equal. rewrite rev_app_distr. cbn [rev]. rewrite Hrev.
  rewrite <- !app_assoc. reflexivity.
Qed.

End PathFacts.

(** X2. For a path [dir/name/file] whose folder [name] is not empty and where
    neither [name] nor [file] holds a separator, the identity key is [name],
    whatever [dir] is. *)
Theorem person_name_is_parent_folder
    (dir name file : string) (d t : option Q) :
  name <> "" -> no_sep name = true -> no_sep file = true ->
  person_name_of (Candidate (Some (dir ++ "/" ++ name ++ "/" ++ file)) d t)
  = Some name.
Proof.
  intros Hne Hname Hfile.
  assert (list_ascii_of_string name <> []) as Hne'.
  { intros H. apply Hne. rewrite <- (string_of_list_ascii_of_string name), H.
    reflexivity. }
  set (a := list_ascii_of_string dir).
  set (n := list_ascii_of_string name).
  set (f := list_ascii_of_string file).
  assert (dir ++ "/" ++ name ++ "/" ++ file
          = string_of_list_ascii (a ++ OsPath.sep :: n ++ OsPath.sep :: f)) as Hp.
  { rewrite <- (string_of_list_ascii_of_string (dir ++ "/" ++ name ++ "/" ++ file)).
    f_equal. now rewrite !list_ascii_of_string_app. }
  unfold person_name_of. cbn [c_identity].
  destruct (dir ++ "/" ++ name ++ "/" ++ file) as [|c0 s0] eqn:Hpath.
  { exfalso. apply (f_equal list_ascii_of_string) in Hp.
    rewrite list_ascii_of_string_of_list_ascii in Hp. cbn in Hp.
    destruct a; discriminate. }
  rewrite Hp, (dirname_of_folder_file a n f Hne' Hname Hfile).
  unfold OsPath.basename. rewrite list_ascii_of_string_of_list_ascii.
  rewrite (tail_of_last a n Hname). f_equal.
  apply string_of_list_ascii_of_string.
Qed.

Lemma person_name_is_parent_folder_witness :
  person_name_of
    (Candidate (Some ("/home/user/known_faces" ++ "/" ++ "Azizbek" ++ "/" ++ "a b.png"))
       None None)
  = Some "Azizbek".
Proof.
  apply (person_name_is_parent_folder "/home/user/known_faces" "Azizbek" "a b.png");
    [discriminate | reflexivity | reflexivity].
Defined.

(** X3. A path that is not empty and holds no separator (a bare file name)
    gives the empty string as identity key, not [None]. *)
Theorem person_name_bare_file_is_empty (p : string) (d t : option Q) :
  p <> "" -> no_sep p = true ->
  person_name_of (Candidate (Some p) d t) = Some "".
Proof.
  intros Hne Hp. unfold person_name_of. cbn [c_identity].
  destruct p as [|c s]; [contradiction|].
  f_equal. unfold OsPath.dirname, OsPath.head_of.
  rewrite drop_until_sep_clean by (rewrite forallb_rev; exact Hp).
  reflexivity.
Qed.

Lemma person_name_bare_file_is_empty_witness :
  person_name_of (Candidate (Some "face.jpg") (Some (1 # 10)) None) = Some "".
Proof.
  apply (person_name_bare_file_is_empty "face.jpg"); [discriminate|reflexivity].
Defined.

(** X4. An identity key read off a path never holds a separator. *)
Theorem person_name_has_no_separator (top : candidate) (k : string) :
  person_name_of top = Some k -> no_sep k = true.
Proof.
  unfold person_name_of. destruct (c_identity top) as [[|c s]|]; try discriminate.
  intros [= <-]. apply basename_clean.
Qed.

Lemma person_name_has_no_separator_witness : no_sep "Nazarbek" = true.
Proof.
  apply (person_name_has_no_separator cand_boundary "Nazarbek"). reflexivity.
Defined.

(** ** The decision *)

(** X5. The decision is monotone in the distance: with the same threshold
    field, a candidate at least as close as a MATCHED one is MATCHED too,
    whatever the two identities are. *)
Theorem matched_monotone_in_distance
    (cfg : config) (i1 i2 : option string) (d1 d2 : Q) (t : option Q) :
  (d1 <= d2)%Q ->
  matched_of cfg (Candidate i2 (Some d2) t) = Ok true ->
  matched_of cfg (Candidate i1 (Some d1) t) = Ok true.
Proof.
  intros Hle H2.
  rewrite (matched_of_distance cfg (Candidate i2 (Some d2) t) d2 eq_refl) in H2.
  rewrite (matched_of_distance cfg (Candidate i1 (Some d1) t) d1 eq_refl).
  injection H2 as H2. f_equal.
  change (active_threshold cfg (Candidate i1 (Some d1) t))
    with (active_threshold cfg (Candidate i2 (Some d2) t)).
  apply Qle_bool_iff. apply Qle_bool_iff in H2.
  now apply Qle_trans with d2.
Qed.

Lemma matched_monotone_in_distance_witness :
  matched_of source_config (Candidate None (Some (10 # 100)) (Some (40 # 100)))
  = Ok true.
Proof.
  apply (matched_monotone_in_distance source_config None
           (Some "known_faces/Dilnoza/img7.jpg") (10 # 100) (30 # 100)
           (Some (40 # 100))).
  - vm_compute. discriminate.
  - reflexivity.
Defined.

(** ** Lookups in the registry *)

Lemma find_app {A} (f : A -> bool) (l1 l2 : list A) :
  find f (l1 ++ l2) = match find f l1 with
                      | Some x => Some x
                      | None => find f l2
                      end.
Proof.
  induction l1 as [|a l1 IH]; [reflexivity|].
  cbn. destruct (f a); [reflexivity|exact IH].
Qed.

Lemma find_folder_none (tbl : list employee) (k : string) :
  has_folder tbl k = false ->
  find (fun e => (e_folder_name e =? k)%string) tbl = None.
Proof.
  intros H. destruct (find _ tbl) as [row|] eqn:F; [|reflexivity].
  apply find_some in F. destruct F as [Hin Heq].
  assert (has_folder tbl k = true)
    by (apply existsb_exists; exists row; auto).
  congruence.
Qed.

Lemma find_folder_some (tbl : list employee) (k : string) :
  has_folder tbl k = true ->
  exists row, find (fun e => (e_folder_name e =? k)%string) tbl = Some row.
Proof.
  intros H. destruct (find _ tbl) as [row|] eqn:F; [now exists row|].
  apply existsb_exists in H. destruct H as (row & Hin & Heq).
  pose proof (find_none _ _ F row Hin) as Hn. cbn in Hn. congruence.
Qed.

Lemma get_employee_row (conn : db) (k : string) (e : emp) :
  get_employee conn (Some k) = Some e ->
  emp_folder_name e = Some k /\
  exists row, In row (employees conn) /\ e_folder_name row = k /\
              emp_full_name e = Some (e_full_name row) /\
              emp_class e = e_class row.
Proof.
  intros H. unfold get_employee in H.
  destruct (find _ (employees conn)) as [row|] eqn:F; [|discriminate].
  injection H as <-. apply find_some in F. destruct F as [Hin Heq].
  apply String.eqb_eq in Heq. cbn. split; [now rewrite Heq|].
  exists row. auto.
Qed.

(** X6. A lookup misses exactly the keys that are in no row of [employees];
    when it hits, the dict returned has the key asked for as [folder_name] and
    the name and class of a row of the table with that key. *)
Theorem get_employee_hits_registered_keys (conn : db) (k : string) :
  (get_employee conn (Some k) = None <-> has_folder (employees conn) k = false) /\
  (forall e, get_employee conn (Some k) = Some e ->
     emp_folder_name e = Some k /\
     exists row, In row (employees conn) /\ e_folder_name row = k /\
                 emp_full_name e = Some (e_full_name row) /\
                 emp_class e = e_class row).
Proof.
  split.
  - split; [|apply get_employee_miss].
    intros H. destruct (has_folder (employees conn) k) eqn:Hk; [|reflexivity].
    destruct (find_folder_some _ _ Hk) as [row F].
    unfold get_employee in H. rewrite F in H. discriminate.
  - intros e H. now apply get_employee_row.
Qed.

Lemma get_employee_hits_registered_keys_witness :
  get_employee db0 (Some "Azizbek")
  = Some (Emp (Some "Azizbek") (Some "Azizbek X.") "10-sinf") /\
  emp_folder_name (Emp (Some "Azizbek") (Some "Azizbek X.") "10-sinf")
  = Some "Azizbek".
Proof.
  split; [reflexivity|].
  exact (proj1 (proj2 (get_employee_hits_registered_keys db0 "Azizbek")
                  _ eq_refl)).
Defined.

Lemma seed_fold_absent mapping : forall tbl k,
  has_folder tbl k = false ->
  (forall item, In item mapping -> fst item <> k) ->
  has_folder (fold_left seed_row mapping tbl) k = false.
Proof.
  induction mapping as [|[k0 inf] rest IH]; intros tbl k H Hkeys; [exact H|].
  cbn. apply IH.
  - unfold insert_or_ignore. destruct (has_folder tbl k0); [exact H|].
    rewrite has_folder_app, H. cbn.
    apply String.eqb_neq. apply (Hkeys (k0, inf)). now left.
  - intros item Hin. apply Hkeys. now right.
Qed.

(** X7. Insert then look up: for a mapping with distinct keys, a key that was
    not in [employees] resolves after seeding to its own entry, with the
    folder name standing in for a missing [full_name] and the empty string for
    a missing [class]. *)
Theorem seed_then_lookup
    (conn : db) (mapping : list (string * info)) (k : string) (inf : info) :
  NoDup (map fst mapping) ->
  In (k, inf) mapping ->
  has_folder (employees conn) k = false ->
  get_employee (seed_employees conn mapping) (Some k)
  = Some (Emp (Some k) (Some (info_get (i_full_name inf) k))
            (info_get (i_class inf) "")).
Proof.
  intros ND Hin Hnew.
  destruct (in_split _ _ Hin) as (pre & post & ->).
  rewrite map_app in ND. cbn in ND.
  assert (forall item, In item pre -> fst item <> k) as Hpre.
  { intros item Hi Hk. apply NoDup_remove_2 in ND. apply ND.
    apply in_or_app. left. rewrite <- Hk. now apply in_map. }
  unfold get_employee, seed_employees. cbn [employees].
  rewrite fold_left_app. cbn [fold_left seed_row].
  set (tbl1 := fold_left seed_row pre (employees conn)).
  assert (has_folder tbl1 k = false) as H1 by now apply seed_fold_absent.
  unfold insert_or_ignore. rewrite H1.
  destruct (seed_fold_extends post
              (tbl1 ++ [ {| e_id := next_id (map e_id tbl1);
                            e_folder_name := k;
                            e_full_name := info_get (i_full_name inf) k;
                            e_class := info_get (i_class inf) "" |} ])%list)
    as [added ->].
  rewrite !find_app, (find_folder_none tbl1 k H1). cbn.
  rewrite String.eqb_refl. reflexivity.
Qed.

Lemma seed_then_lookup_witness :
  get_employee
    (seed_employees db0 [("Dilnoza", Info None (Some "11-sinf")); ("Sardor", Info None None)])
    (Some "Dilnoza")
  = Some (Emp (Some "Dilnoza") (Some "Dilnoza") "11-sinf").
Proof.
  apply (seed_then_lookup db0
           [("Dilnoza", Info None (Some "11-sinf")); ("Sardor", Info None None)]
           "Dilnoza" (Info None (Some "11-sinf"))).
  - repeat constructor; cbn; intuition discriminate.
  - now left.
  - reflexivity.
Defined.

(** X8. Seeding never changes what a key already in [employees] resolves to,
    whatever the mapping says about that key. *)
Theorem seed_keeps_existing_profile
    (conn : db) (mapping : list (string * info)) (k : string) :
  has_folder (employees conn) k = true ->
  get_employee (seed_employees conn mapping) (Some k)
  = get_employee conn (Some k).
Proof.
  intros Hk. unfold get_employee, seed_employees. cbn [employees].
  destruct (seed_fold_extends mapping (employees conn)) as [added ->].
  rewrite find_app. destruct (find_folder_some _ _ Hk) as [row ->].
  reflexivity.
Qed.

Lemma seed_keeps_existing_profile_witness :
  get_employee
    (seed_employees db0 [("Nazarbek", Info (Some "Somebody Else") (Some "1-sinf"))])
    (Some "Nazarbek")
  = Some (Emp (Some "Nazarbek") (Some "Nazarbek Qobulov") "9-sinf").
Proof.
  rewrite (seed_keeps_existing_profile db0
             [("Nazarbek", Info (Some "Somebody Else") (Some "1-sinf"))]
             "Nazarbek" eq_refl).
  reflexivity.
Defined.

(** X9. Seeding with one mapping and then another is seeding with the two
    mappings one after the other; and when every key of the second mapping is
    a key of the first, the second seeding changes nothing. *)
Theorem seed_employees_compose
    (conn : db) (m1 m2 : list (string * info)) :
  seed_employees (seed_employees conn m1) m2 = seed_employees conn (m1 ++ m2) /\
  ((forall item, In item m2 -> In (fst item) (map fst m1)) ->
   seed_employees (seed_employees conn m1) m2 = seed_employees conn m1).
Proof.
  split.
  - unfold seed_employees. cbn. now rewrite fold_left_app.
  - intros Hsub. unfold seed_employees. cbn. f_equal.
    apply seed_fold_noop. intros item Hin.
    apply Hsub in Hin. apply in_map_iff in Hin.
    destruct Hin as (item' & Heq & Hin'). rewrite <- Heq.
    now apply seed_fold_covers.
Qed.

Lemma seed_employees_compose_witness :
  seed_employees (seed_employees (init_db new_file) person_data)
    [("Azizbek", Info None None)]
  = seed_employees (init_db new_file) person_data.
Proof.
  apply (proj2 (seed_employees_compose (init_db new_file) person_data
                  [("Azizbek", Info None None)])).
  intros item [<-|[]]. cbn. auto.
Defined.

(** ** Row ids *)









(** ** One pass *)

Lemma log_access_shape (conn conn' : db) (now : string) (ok : bool)
    folder_name full_name (matched : bool) (distance : option Q) :
  log_access conn now ok folder_name full_name matched distance = Ok conn' ->
  ok = true /\
  conn' = append_log conn
            {| l_id := next_id (map l_id (access_logs conn));
               l_folder_name := folder_name;
               l_full_name := full_name;
               l_timestamp := now;
               l_matched := (if matched then 1 else 0)%Z;
               l_distance := distance |}.
Proof.
  destruct ok; [|discriminate].
  rewrite log_access_accepted. intros [= <-]. auto.
Qed.

(** A pass that returns has appended one row, stamped with the frame's clock
    reading and carrying the next id; it has kept [employees]. *)
Lemma iteration_shape (cfg : config) (conn conn' : db) (ev : frame_event) :
  iteration cfg conn ev = Ok conn' ->
  exists row,
    conn' = append_log conn row /\
    l_id row = next_id (map l_id (access_logs conn)) /\
    l_timestamp row = ev_now ev /\
    l_distance row = distance_of ev /\
    decision cfg ev = Ok (l_matched row =? 1)%Z /\
    ev_store_ok ev = true.
Proof.
  unfold iteration, decision, distance_of.
  destruct (safe_get_top_result (df_list_of ev)) as [top|].
  - destruct (matched_of cfg top) as [[|]|e]; cbn [bind]; intros H;
      try discriminate;
      apply log_access_shape in H; destruct H as [Hok ->];
      eexists; (split; [reflexivity|]); cbn; auto.
  - intros H. apply log_access_shape in H. destruct H as [Hok ->].
    eexists. split; [reflexivity|]. cbn. auto.
Qed.


(** X11. A MATCHED candidate whose key is in [employees] is logged under that
    key with the name the registry holds for it. *)
Theorem matched_registered_key_logs_profile_name
    (cfg : config) (conn : db) (ev : frame_event) (top : candidate)
    (k : string) (e : emp) :
  safe_get_top_result (df_list_of ev) = Some top ->
  matched_of cfg top = Ok true ->
  person_name_of top = Some k ->
  get_employee conn (Some k) = Some e ->
  ev_store_ok ev = true ->
  iteration cfg conn ev
  = Ok (append_log conn
          {| l_id := next_id (map l_id (access_logs conn));
             l_folder_name := Some k;
             l_full_name := emp_full_name e;
             l_timestamp := ev_now ev;
             l_matched := 1%Z;
             l_distance := c_distance top |}) /\
  exists row, In row (employees conn) /\ e_folder_name row = k /\
              emp_full_name e = Some (e_full_name row).
Proof.
  intros Htop Hm Hk Hget Hok. split.
  - rewrite (iteration_matched cfg conn ev top Htop Hm), Hk, Hget, Hok.
    apply log_access_accepted.
  - destruct (get_employee_row conn k e Hget)
      as (_ & row & Hin & Hrow & Hname & _).
    now exists row.
Qed.

Lemma matched_registered_key_logs_profile_name_witness :
  iteration source_config db0 (frame cand_boundary true)
  = Ok (append_log db0
          (AccessLog 1 (Some "Nazarbek") (Some "Nazarbek Qobulov")
             "2024-05-01T09:00:00" 1 (Some (45 # 100)))).
Proof.
  exact (proj1 (matched_registered_key_logs_profile_name source_config db0
                  (frame cand_boundary true) cand_boundary "Nazarbek"
                  (Emp (Some "Nazarbek") (Some "Nazarbek Qobulov") "9-sinf")
                  eq_refl eq_refl eq_refl eq_refl eq_refl)).
Defined.

(** ** The loop *)

Lemma main_loop_extends
    (cfg : config) (frames : list frame_event) (conn : db) :
  employees (fst (main_loop cfg conn frames)) = employees conn /\
  exists added,
    access_logs (fst (main_loop cfg conn frames))
    = (access_logs conn ++ added)%list /\
    (List.length added <= List.length frames)%nat /\
    map l_timestamp added = map ev_now (firstn (List.length added) frames).
Proof.
  revert conn. induction frames as [|ev rest IH]; intros conn.
  - cbn. split; [reflexivity|]. exists []. rewrite app_nil_r. cbn. auto.
  - cbn [main_loop]. destruct (iteration cfg conn ev) as [conn'|e] eqn:Hit.
    + apply iteration_shape in Hit.
      destruct Hit as (row & -> & _ & Hts & _).
      destruct (ev_quit ev).
      * cbn. split; [reflexivity|]. exists [row]. cbn. rewrite Hts.
        repeat split. lia.
      * destruct (IH (append_log conn row)) as (Hemp & added & Hlogs & Hlen & Hmap).
        split; [exact Hemp|]. exists (row :: added). cbn in Hlogs |- *.
        rewrite Hlogs, <- app_assoc, Hts, Hmap. repeat split. lia.
    + cbn. split; [reflexivity|]. exists []. rewrite app_nil_r. cbn.
      repeat split. lia.
Qed.

(** X12. Whatever the frames and however the loop ends, it leaves [employees]
    as it was and only appends to [access_logs]: the rows that were there stay
    first and unchanged, at most one row is added per frame, and the rows
    added carry the clock readings of the first frames, in order. *)
Theorem main_loop_append_only
    (cfg : config) (frames : list frame_event) (conn : db) :
  employees (fst (main_loop cfg conn frames)) = employees conn /\
  exists added,
    access_logs (fst (main_loop cfg conn frames))
    = (access_logs conn ++ added)%list /\
    (List.length added <= List.length frames)%nat /\
    map l_timestamp added = map ev_now (firstn (List.length added) frames).
Proof. apply main_loop_extends. Qed.



(** X14. When on every frame the store accepts the insert, the quit key is
    not pressed and the decision does not raise, the loop runs to the end of
    the capture and has added exactly one row per frame, in frame order, each
    with the frame's clock reading, decision and distance. *)
Theorem main_loop_all_frames_logged
    (cfg : config) (frames : list frame_event) (conn : db) :
  Forall (fun ev => ev_store_ok ev = true /\ ev_quit ev = false /\
                    exists m, decision cfg ev = Ok m) frames ->
  snd (main_loop cfg conn frames) = CaptureEnded /\
  exists added,
    access_logs (fst (main_loop cfg conn frames))
    = (access_logs conn ++ added)%list /\
    Forall2 (fun ev row =>
               decision cfg ev = Ok (l_matched row =? 1)%Z /\
               l_timestamp row = ev_now ev /\
               l_distance row = distance_of ev) frames added.
Proof.
  revert conn. induction frames as [|ev rest IH]; intros conn Hall.
  - cbn. split; [reflexivity|]. exists []. rewrite app_nil_r. split; constructor.
  - inversion Hall as [|? ? (Hok & Hq & m & Hdec) Hrest]; subst.
    destruct (iteration_logs_once cfg conn ev m Hdec Hok)
      as (row0 & Hit & _).
    cbn [main_loop]. rewrite Hit, Hq.
    pose proof Hit as Hsh. apply iteration_shape in Hsh.
    destruct Hsh as (row & Heq & _ & Hts & Hd & Hdec' & _).
    destruct (IH (append_log conn row0) Hrest) as (Hexit & added & Hlogs & Hf2).
    split; [exact Hexit|].
    exists (row0 :: added). split.
    + rewrite Hlogs. cbn. now rewrite <- app_assoc.
    + assert (row0 = row) as ->.
      { assert (access_logs (append_log conn row0)
                = access_logs (append_log conn row)) as E by now rewrite Heq.
        cbn in E. apply app_inv_head in E. now injection E. }
      constructor; auto.
Qed.

Lemma main_loop_all_frames_logged_witness :
  snd (main_loop source_config db0 [frame cand_far true; frame cand_boundary true])
  = CaptureEnded.
Proof.
  apply (main_loop_all_frames_logged source_config
           [frame cand_far true; frame cand_boundary true] db0).
  repeat constructor; eexists; reflexivity.
Defined.

(** X15. Running the loop over [pre ++ rest]: when the run over [pre] reaches
    the end of [pre], the loop goes on over [rest] from the database [pre]
    left; when it ended by the quit key or an exception, [rest] is never
    processed. *)
Theorem main_loop_app
    (cfg : config) (pre rest : list frame_event) (conn : db) :
  (snd (main_loop cfg conn pre) = CaptureEnded ->
   main_loop cfg conn (pre ++ rest)
   = main_loop cfg (fst (main_loop cfg conn pre)) rest) /\
  (snd (main_loop cfg conn pre) <> CaptureEnded ->
   main_loop cfg conn (pre ++ rest) = main_loop cfg conn pre).
Proof.
  revert conn. induction pre as [|ev pre IH]; intros conn.
  - cbn. split; [reflexivity|]. intros H. now contradiction H.
  - cbn [main_loop app]. destruct (iteration cfg conn ev) as [conn'|e].
    + destruct (ev_quit ev).
      * cbn. split; [discriminate|reflexivity].
      * apply IH.
    + cbn. split; [discriminate|reflexivity].
Qed.

Lemma main_loop_app_witness :
  main_loop source_config db0
    ([frame cand_no_distance true] ++ [frame cand_boundary true])
  = main_loop source_config db0 [frame cand_no_distance true].
Proof.
  apply (proj2 (main_loop_app source_config [frame cand_no_distance true]
                  [frame cand_boundary true] db0)).
  cbn. discriminate.
Defined.



(** ** [main] *)

(** X17. After [main], whatever the database file held, whether the camera
    opened and whatever the frames were: every key of [person_data] is in
    [employees]; the rows [access_logs] held before the run are still there,
    first and unchanged, with at most one more row per frame; and when the
    camera did not open nothing was logged. *)
Theorem main_registry_and_ledger
    (cfg : config) (file : db_file) (camera_opened : bool)
    (frames : list frame_event) :
  (forall item, In item person_data ->
     has_folder (employees (fst (main cfg file camera_opened frames))) (fst item)
     = true) /\
  (exists added,
     access_logs (fst (main cfg file camera_opened frames))
     = (access_logs (init_db file) ++ added)%list /\
     (List.length added <= List.length frames)%nat) /\
  (camera_opened = false ->
   main cfg file camera_opened frames
   = (seed_employees (init_db file) person_data, CameraClosed)).
Proof.
  unfold main.
  set (conn := seed_employees (init_db file) person_data).
  assert (forall item, In item person_data ->
            has_folder (employees conn) (fst item) = true) as Hseed.
  { intros item Hin. unfold conn, seed_employees. cbn [employees].
    now apply seed_fold_covers. }
  destruct camera_opened.
  - destruct (main_loop_extends cfg frames conn)
      as (Hemp & added & Hlogs & Hlen & _).
    split; [|split].
    + intros item Hin. rewrite Hemp. now apply Hseed.
    + exists added. split; [exact Hlogs|exact Hlen].
    + discriminate.
  - split; [|split].
    + exact Hseed.
    + exists []. cbn. rewrite app_nil_r. split; [reflexivity|lia].
    + reflexivity.
Qed.

Lemma main_registry_and_ledger_witness :
  has_folder
    (employees (fst (main source_config
                       (DbFile (Some [Employee 7 "Sardor" "Sardor T." "8-sinf"]) None)
                       true [frame cand_far false])))
    "Azizbek" = true.
Proof.
  apply (proj1 (main_registry_and_ledger source_config
                  (DbFile (Some [Employee 7 "Sardor" "Sardor T." "8-sinf"]) None)
                  true [frame cand_far false])
           ("Azizbek", Info (Some "Azizbek X.") (Some "10-sinf"))).
  cbn. auto.
Defined.

(** ** Feedback *)

(** X18. The feedback of a pass agrees with the ledger.  The pass gives
    feedback exactly when it has written its row (it raises what the database
    part raises, and leaves the same database); the sound is "access.mp3" and
    the colour green exactly with a row flagged [matched = 1], whose name is
    the one shown after "Ism: "; otherwise the sound is "error.mp3", the colour
    red, the first line "Sizni tanib bo'lmadi" and the row is the unknown
    one. *)
Theorem feedback_agrees_with_ledger
    (fmt3 : Q -> string) (cfg : config) (conn : db) (ev : frame_event) :
  match iteration_fb fmt3 cfg conn ev with
  | Ok (conn', fb) =>
      iteration cfg conn ev = Ok conn' /\
      exists row,
        conn' = append_log conn row /\
        ((fb_sound fb = "access.mp3" /\ fb_color fb = (0, 255, 0)%Z /\
          l_matched row = 1%Z /\
          fb_text1 fb = "Ism: " ++ py_str (l_full_name row))
         \/
         (fb_sound fb = "error.mp3" /\ fb_color fb = (0, 0, 255)%Z /\
          l_matched row = 0%Z /\
          fb_text1 fb = "Sizni tanib bo'lmadi" /\
          l_folder_name row = None /\ l_full_name row = Some "Unknown"))
  | Raise e => iteration cfg conn ev = Raise e
  end.
Proof.
  unfold iteration_fb, iteration.
  destruct (safe_get_top_result (df_list_of ev)) as [top|].
  - destruct (matched_of cfg top) as [[|]|e]; cbn [bind];
      [| |reflexivity];
      (destruct (ev_store_ok ev); [|reflexivity]);
      rewrite log_access_accepted; cbn [bind];
      (split; [reflexivity|]); eexists; (split; [reflexivity|]); cbn.
    + left. auto.
    + right. repeat split.
  - destruct (ev_store_ok ev); [|reflexivity].
    rewrite log_access_accepted. cbn [bind].
    split; [reflexivity|]. eexists. split; [reflexivity|]. cbn.
    right. repeat split.
Qed.

Example feedback_for_stranger (fmt3 : Q -> string) :
  iteration_fb fmt3 source_config db0 (frame cand_stranger true)
  = Ok (append_log db0
          (AccessLog 1 (Some "Dilnoza") (Some "Dilnoza")
             "2024-05-01T09:00:00" 1 (Some (30 # 100))),
        Feedback "Ism: Dilnoza" (Some "Sinf: ") (0, 255, 0)%Z "access.mp3").
Proof. reflexivity. Qed.

Example feedback_without_identity (fmt3 : Q -> string) :
  iteration_fb fmt3 source_config db0 (frame cand_no_identity true)
  = Ok (append_log db0
          (AccessLog 1 None None "2024-05-01T09:00:00" 1 (Some (20 # 100))),
        Feedback "Ism: None" (Some "Sinf: ") (0, 255, 0)%Z "access.mp3").
Proof. reflexivity. Qed.
